(** * go-logger: a level-gated logger writing to a log sink and a console sink

    Shallow embedding of [logger.go] (package [logger]) and proofs of the
    properties its specification states.

    Layout of the embedding:
    - [Level] is Go's [int]; only comparisons are applied to it, so it is
      modelled as [Z].
    - an [io.Writer] value is a term of [io_Writer]: [ioutil.Discard], an
      [*os.File] identified by its name, or [io.MultiWriter(a, b)].
    - the seven [*NotePad] package variables are the pointers [PadRef]; the
      objects they point to live in the store [pads], which [initialize]
      mutates in place by ranging over the slice [NotePads].
    - the standard packages [log], [fmt] and [os] are not part of the
      repository; their behaviour is modelled by [Logger_output],
      [Logger_Print] ... and by the oracle [os_OpenFile].  Every message
      [fmt] builds and every [Write] on a logger's output is recorded in
      [events].  A logger made over [ioutil.Discard] writes nothing, and
      its Print and Fatal methods do not even build the message. *)

From Stdlib Require Import ZArith List String Bool Lia.
From stdpp Require Import base decidable option list strings gmap.
Import ListNotations.

Local Open Scope string_scope.
Local Open Scope list_scope.
Local Open Scope Z_scope.

(** ** Levels (logger.go, lines 13-14 and 100-112) *)

Definition Level : Type := Z.

Definition LevelTrace : Level := 0.
Definition LevelDebug : Level := 1.
Definition LevelInfo : Level := 2.
Definition LevelWarn : Level := 3.
Definition LevelError : Level := 4.
Definition LevelCritical : Level := 5.
Definition LevelFatal : Level := 6.
Definition LevelNone : Level := 7.

Definition DefaultLogThreshold : Level := LevelInfo.
Definition DefaultStdoutThreshold : Level := LevelInfo.

(** ** Writers, loggers and note pads *)

(** The [io.Writer] values the package handles.  [os.Stdout] is the
    [*os.File] named "/dev/stdout". *)
Inductive io_Writer : Type :=
| ioutil_Discard : io_Writer
| os_File (name : string) : io_Writer
| io_MultiWriter (a b : io_Writer) : io_Writer.

Definition os_Stdout : io_Writer := os_File "/dev/stdout".

(** [log.Logger]; [log_New out prefix flag] is [log.New(out, prefix, flag)]. *)
Record log_Logger : Type := log_New {
  out : io_Writer;
  prefix : string;
  flag : Z
}.

(** [type NotePad struct] (lines 16-21).  The field [Level] is named
    [n_Level] here because [Level] is the type; [Logger] is a pointer and
    may be nil ([None]). *)
Record NotePad : Type := mkNotePad {
  Handle : io_Writer;
  n_Level : Level;
  Prefix : string;
  Logger : option log_Logger
}.

(** The seven [*NotePad] pointers, named after the package variable that
    holds each of them (lines 123-129). *)
Inductive PadRef : Type :=
| TRACE | DEBUG | INFO | WARN | ERROR | CRITICAL | FATAL.

#[global] Instance PadRef_eq_dec : EqDecision PadRef.
Proof. solve_decision. Defined.

(** [NotePads []*NotePad] (line 131): the same pointers, in a slice. *)
Definition NotePads : list PadRef :=
  [TRACE; DEBUG; INFO; WARN; ERROR; CRITICAL; FATAL].

(** ** What is formatted and written *)

(** An operand of the variadic [v ...interface{}]. *)
Inductive Value : Type :=
| VString (s : string)
| VInt (i : Z)
| VError (msg : string).

(** The message a [fmt] call builds, kept symbolic. *)
Inductive Text : Type :=
| fmt_Sprint (v : list Value)
| fmt_Sprintf (format : string) (v : list Value)
| fmt_Sprintln (v : list Value).

(** One line handed to a writer by [log.Logger.Output]: the logger's prefix,
    the header selected by its flag bits, and the message. *)
Record Line : Type := mkLine {
  ln_prefix : string;
  ln_flag : Z;
  ln_text : Text
}.

Inductive Event : Type :=
| Formatted (t : Text)
| Wrote (w : io_Writer) (l : Line).

(** ** Package state *)

Record State : Type := mkState {
  LogHandle : io_Writer;
  OutHandle : io_Writer;
  BothHandle : io_Writer;
  Flag : Z;
  pads : PadRef -> NotePad;
  logThreshold : Level;
  outputThreshold : Level;
  (** environment: [os_OpenFile path] is the error [os.OpenFile] returns
      for [path], [None] when the file opens *)
  os_OpenFile : string -> option string;
  (** environment: the formatting calls and writes performed so far *)
  events : list Event
}.

Definition set_LogHandle (w : io_Writer) (st : State) : State :=
  mkState w (OutHandle st) (BothHandle st) (Flag st) (pads st)
          (logThreshold st) (outputThreshold st) (os_OpenFile st) (events st).

Definition set_OutHandle (w : io_Writer) (st : State) : State :=
  mkState (LogHandle st) w (BothHandle st) (Flag st) (pads st)
          (logThreshold st) (outputThreshold st) (os_OpenFile st) (events st).

Definition set_BothHandle (w : io_Writer) (st : State) : State :=
  mkState (LogHandle st) (OutHandle st) w (Flag st) (pads st)
          (logThreshold st) (outputThreshold st) (os_OpenFile st) (events st).

Definition set_Flag (f : Z) (st : State) : State :=
  mkState (LogHandle st) (OutHandle st) (BothHandle st) f (pads st)
          (logThreshold st) (outputThreshold st) (os_OpenFile st) (events st).

Definition set_pads (h : PadRef -> NotePad) (st : State) : State :=
  mkState (LogHandle st) (OutHandle st) (BothHandle st) (Flag st) h
          (logThreshold st) (outputThreshold st) (os_OpenFile st) (events st).

Definition set_logThreshold (l : Level) (st : State) : State :=
  mkState (LogHandle st) (OutHandle st) (BothHandle st) (Flag st) (pads st)
          l (outputThreshold st) (os_OpenFile st) (events st).

Definition set_outputThreshold (l : Level) (st : State) : State :=
  mkState (LogHandle st) (OutHandle st) (BothHandle st) (Flag st) (pads st)
          (logThreshold st) l (os_OpenFile st) (events st).

Definition set_os_OpenFile (fs : string -> option string) (st : State) : State :=
  mkState (LogHandle st) (OutHandle st) (BothHandle st) (Flag st) (pads st)
          (logThreshold st) (outputThreshold st) fs (events st).

Definition set_events (es : list Event) (st : State) : State :=
  mkState (LogHandle st) (OutHandle st) (BothHandle st) (Flag st) (pads st)
          (logThreshold st) (outputThreshold st) (os_OpenFile st) es.

Definition set_Handle (w : io_Writer) (n : NotePad) : NotePad :=
  mkNotePad w (n_Level n) (Prefix n) (Logger n).

Definition set_Logger (l : option log_Logger) (n : NotePad) : NotePad :=
  mkNotePad (Handle n) (n_Level n) (Prefix n) l.

(** The store holds one object per pointer. *)
Definition store (t d i w e c f : NotePad) : PadRef -> NotePad :=
  fun q =>
    match q with
    | TRACE => t | DEBUG => d | INFO => i | WARN => w
    | ERROR => e | CRITICAL => c | FATAL => f
    end.

(** [p.field = ...] through the pointer [p]: the object [p] points to is
    replaced in the store, every other object is left alone. *)
Definition store_upd (p : PadRef) (f : NotePad -> NotePad)
    (h : PadRef -> NotePad) : PadRef -> NotePad :=
  let cell q := if decide (q = p) then f (h q) else h q in
  store (cell TRACE) (cell DEBUG) (cell INFO) (cell WARN) (cell ERROR)
        (cell CRITICAL) (cell FATAL).

(** ** initialize (lines 152-170) *)

(** The handle the first loop assigns to [n.Handle] (lines 156-164). *)
Definition resolve (st : State) (n : NotePad) : io_Writer :=
  if (n_Level n <? outputThreshold st) && (n_Level n <? logThreshold st) then
    ioutil_Discard
  else if (n_Level n >=? outputThreshold st) && (n_Level n >=? logThreshold st) then
    BothHandle st
  else if (n_Level n >=? outputThreshold st) && (n_Level n <? logThreshold st) then
    OutHandle st
  else
    LogHandle st.

Definition initialize (st : State) : State :=
  let st1 := set_BothHandle (io_MultiWriter (LogHandle st) (OutHandle st)) st in
  let h1 :=
    fold_left (fun h p => store_upd p (fun n => set_Handle (resolve st1 n) n) h)
              NotePads (pads st1) in
  let h2 :=
    fold_left (fun h p =>
                 store_upd p (fun n =>
                   set_Logger (Some (log_New (Handle n) (Prefix n) (Flag st1))) n) h)
              NotePads h1 in
  set_pads h2 st1.

(** ** levelCheck and the setters (lines 172-212) *)

Definition levelCheck (level : Level) : Level :=
  if level <=? LevelTrace then LevelTrace
  else if level >=? LevelFatal then LevelFatal
  else level.

Definition SetLogThreshold (level : Level) (st : State) : State :=
  initialize (set_logThreshold (levelCheck level) st).

Definition SetStdoutThreshold (level : Level) (st : State) : State :=
  initialize (set_outputThreshold (levelCheck level) st).

Definition SetLogFlag (flag : Z) (st : State) : State :=
  initialize (set_Flag flag st).

(** ** The standard [log] package, as documented *)

(** How a call ends. *)
Inductive Outcome (A : Type) : Type :=
| Returned (a : A)       (* the call returns to its caller *)
| Exited (status : Z)    (* os.Exit(status) *)
| Panicked (s : Text)    (* panic(s) *)
| NilDereference.        (* method called through a nil *log.Logger *)

Arguments Returned {A} a.
Arguments Exited {A} status.
Arguments Panicked {A} s.
Arguments NilDereference {A}.

(** [log.New] notes whether the output is [io.Discard]; [ioutil.Discard] is
    that same value.  A MultiWriter is not, whatever it is made of. *)
Definition isDiscard (l : log_Logger) : bool :=
  match out l with
  | ioutil_Discard => true
  | _ => false
  end.

(** The logger's [output]: on a discarding logger it returns at once;
    otherwise the message [t] is built and one line is written on the
    logger's output. *)
Definition Logger_output (l : log_Logger) (t : Text) (st : State) : State :=
  if isDiscard l then st
  else set_events (events st ++
                     [Formatted t; Wrote (out l) (mkLine (prefix l) (flag l) t)]) st.

(** Print, Printf, Println: [output], the message being built inside it.
    Fatal, Fatalf, Fatalln: the same, followed by [os.Exit(1)]. *)
Definition Logger_emit (l : option log_Logger) (t : Text) (st : State)
    (after : Outcome unit) : Outcome unit * State :=
  match l with
  | None => (NilDereference, st)
  | Some l => (after, Logger_output l t st)
  end.

(** Panic, Panicf, Panicln: the message [s] is built first, then handed to
    [output], which writes it unless the logger discards, then [panic(s)]. *)
Definition Logger_panic (l : option log_Logger) (t : Text) (st : State)
    : Outcome unit * State :=
  let built := set_events (events st ++ [Formatted t]) st in
  match l with
  | None => (NilDereference, built)
  | Some l =>
      (Panicked t,
       if isDiscard l then built
       else set_events (events st ++
                          [Formatted t; Wrote (out l) (mkLine (prefix l) (flag l) t)]) st)
  end.

Definition Logger_Print (l : option log_Logger) (v : list Value) (st : State) :=
  Logger_emit l (fmt_Sprint v) st (Returned tt).
Definition Logger_Printf (l : option log_Logger) (format : string) (v : list Value) (st : State) :=
  Logger_emit l (fmt_Sprintf format v) st (Returned tt).
Definition Logger_Println (l : option log_Logger) (v : list Value) (st : State) :=
  Logger_emit l (fmt_Sprintln v) st (Returned tt).
Definition Logger_Fatal (l : option log_Logger) (v : list Value) (st : State) :=
  Logger_emit l (fmt_Sprint v) st (Exited 1).
Definition Logger_Fatalf (l : option log_Logger) (format : string) (v : list Value) (st : State) :=
  Logger_emit l (fmt_Sprintf format v) st (Exited 1).
Definition Logger_Fatalln (l : option log_Logger) (v : list Value) (st : State) :=
  Logger_emit l (fmt_Sprintln v) st (Exited 1).
Definition Logger_Panic (l : option log_Logger) (v : list Value) (st : State) :=
  Logger_panic l (fmt_Sprint v) st.
Definition Logger_Panicf (l : option log_Logger) (format : string) (v : list Value) (st : State) :=
  Logger_panic l (fmt_Sprintf format v) st.
Definition Logger_Panicln (l : option log_Logger) (v : list Value) (st : State) :=
  Logger_panic l (fmt_Sprintln v) st.

(** ** The methods of NotePad (lines 23-98) *)

Definition NotePad_checkLevel (st : State) (n : NotePad) : bool :=
  if (n_Level n <? outputThreshold st) && (n_Level n <? logThreshold st) then
    false
  else
    true.

Definition NotePad_Print (p : PadRef) (v : list Value) (st : State)
    : Outcome unit * State :=
  let n := pads st p in
  if negb (NotePad_checkLevel st n) then (Returned tt, st)
  else Logger_Print (Logger n) v st.

Definition NotePad_Printf (p : PadRef) (format : string) (v : list Value) (st : State)
    : Outcome unit * State :=
  let n := pads st p in
  if negb (NotePad_checkLevel st n) then (Returned tt, st)
  else Logger_Printf (Logger n) format v st.

Definition NotePad_Println (p : PadRef) (v : list Value) (st : State)
    : Outcome unit * State :=
  let n := pads st p in
  if negb (NotePad_checkLevel st n) then (Returned tt, st)
  else Logger_Println (Logger n) v st.

Definition NotePad_Fatal (p : PadRef) (v : list Value) (st : State)
    : Outcome unit * State :=
  let n := pads st p in
  if negb (NotePad_checkLevel st n) then (Returned tt, st)
  else Logger_Fatal (Logger n) v st.

Definition NotePad_Fatalf (p : PadRef) (format : string) (v : list Value) (st : State)
    : Outcome unit * State :=
  let n := pads st p in
  if negb (NotePad_checkLevel st n) then (Returned tt, st)
  else Logger_Fatalf (Logger n) format v st.

Definition NotePad_Fatalln (p : PadRef) (v : list Value) (st : State)
    : Outcome unit * State :=
  let n := pads st p in
  if negb (NotePad_checkLevel st n) then (Returned tt, st)
  else Logger_Fatalln (Logger n) v st.

Definition NotePad_Panic (p : PadRef) (v : list Value) (st : State)
    : Outcome unit * State :=
  let n := pads st p in
  if negb (NotePad_checkLevel st n) then (Returned tt, st)
  else Logger_Panic (Logger n) v st.

Definition NotePad_Panicf (p : PadRef) (format : string) (v : list Value) (st : State)
    : Outcome unit * State :=
  let n := pads st p in
  if negb (NotePad_checkLevel st n) then (Returned tt, st)
  else Logger_Panicf (Logger n) format v st.

Definition NotePad_Panicln (p : PadRef) (v : list Value) (st : State)
    : Outcome unit * State :=
  let n := pads st p in
  if negb (NotePad_checkLevel st n) then (Returned tt, st)
  else Logger_Panicln (Logger n) v st.

(** ** SetLogFile (lines 196-207) *)

(** The result is the returned [error] ([None] is nil).  A panic inside
    [CRITICAL.Println] would leave [SetLogFile] the same way. *)
Definition SetLogFile (path : string) (st : State)
    : Outcome (option string) * State :=
  match os_OpenFile st path with
  | Some err =>
      match NotePad_Println CRITICAL
              [VString "Failed to open log file:"; VString path; VError err] st with
      | (Returned _, st') => (Returned (Some err), st')
      | (Exited c, st') => (Exited c, st')
      | (Panicked s, st') => (Panicked s, st')
      | (NilDereference, st') => (NilDereference, st')
      end
  | None =>
      (Returned None, initialize (set_LogHandle (os_File path) st))
  end.

(** ** Package initialisation (lines 114-135 and 148-150) *)

(** The package variables once their initialisers have run; the variable
    [logger] is nil at that point, so every [Logger] field is nil. *)
Definition pad0 : PadRef -> NotePad :=
  store (mkNotePad os_Stdout LevelTrace "[T]: " None)
        (mkNotePad os_Stdout LevelDebug "[D]: " None)
        (mkNotePad os_Stdout LevelInfo "[I]: " None)
        (mkNotePad os_Stdout LevelWarn "[W]: " None)
        (mkNotePad os_Stdout LevelError "[E]: " None)
        (mkNotePad os_Stdout LevelCritical "[C]: " None)
        (mkNotePad os_Stdout LevelFatal "[F]: " None).

(** [log.Ldate | log.Ltime] is [1 | 2]. *)
Definition log_Ldate : Z := 1.
Definition log_Ltime : Z := 2.

Definition package_vars (fs : string -> option string) : State :=
  {| LogHandle := ioutil_Discard;
     OutHandle := os_Stdout;
     BothHandle := io_MultiWriter ioutil_Discard os_Stdout;
     Flag := Z.lor log_Ldate log_Ltime;
     pads := pad0;
     logThreshold := DefaultLogThreshold;
     outputThreshold := DefaultStdoutThreshold;
     os_OpenFile := fs;
     events := [] |}.

(** [func init() { initialize() }] *)
Definition init (fs : string -> option string) : State :=
  initialize (package_vars fs).

(** ** LevelMatches (lines 137-146) *)

Definition LevelMatches : gmap string Level :=
  <["TRACE" := LevelTrace]> (
  <["DEBUG" := LevelDebug]> (
  <["INFO" := LevelInfo]> (
  <["WARN" := LevelWarn]> (
  <["ERROR" := LevelError]> (
  <["CRITICAL" := LevelCritical]> (
  <["FATAL" := LevelFatal]> (
  <["NONE" := LevelNone]> ∅))))))).

(** ** Notions the properties are stated with *)

(** Which branch of the if-chain of [initialize] (lines 156-164) a level
    takes: the four destinations a note pad can be given. *)
Inductive Destination : Type :=
| Discard | Combined | ConsoleOnly | LogOnly.

Definition destination (level outT logT : Level) : Destination :=
  if (level <? outT) && (level <? logT) then Discard
  else if (level >=? outT) && (level >=? logT) then Combined
  else if (level >=? outT) && (level <? logT) then ConsoleOnly
  else LogOnly.

(** The handle each branch assigns. *)
Definition sink_of (st : State) (d : Destination) : io_Writer :=
  match d with
  | Discard => ioutil_Discard
  | Combined => BothHandle st
  | ConsoleOnly => OutHandle st
  | LogOnly => LogHandle st
  end.

(** The files a [Write] on [w] ends up in: none for [ioutil.Discard], the
    file itself, and for [io.MultiWriter(a, b)] those of [a] then of [b]. *)
Fixpoint targets (w : io_Writer) : list string :=
  match w with
  | ioutil_Discard => []
  | os_File name => [name]
  | io_MultiWriter a b => targets a ++ targets b
  end.

(** What an event puts on the files, and the output of a run. *)
Definition delivered (e : Event) : list (string * Line) :=
  match e with
  | Formatted _ => []
  | Wrote w l => map (fun name => (name, l)) (targets w)
  end.

Definition output (es : list Event) : list (string * Line) :=
  flat_map delivered es.

(** The nine emission methods, to range over them. *)
Inductive Method : Type :=
| mPrint | mPrintf (format : string) | mPrintln
| mFatal | mFatalf (format : string) | mFatalln
| mPanic | mPanicf (format : string) | mPanicln.

Definition NotePad_call (m : Method) (p : PadRef) (v : list Value) (st : State)
    : Outcome unit * State :=
  match m with
  | mPrint => NotePad_Print p v st
  | mPrintf format => NotePad_Printf p format v st
  | mPrintln => NotePad_Println p v st
  | mFatal => NotePad_Fatal p v st
  | mFatalf format => NotePad_Fatalf p format v st
  | mFatalln => NotePad_Fatalln p v st
  | mPanic => NotePad_Panic p v st
  | mPanicf format => NotePad_Panicf p format v st
  | mPanicln => NotePad_Panicln p v st
  end.

(** The message each method formats, and how it ends once it has written. *)
Definition text_of (m : Method) (v : list Value) : Text :=
  match m with
  | mPrint | mFatal | mPanic => fmt_Sprint v
  | mPrintf format | mFatalf format | mPanicf format => fmt_Sprintf format v
  | mPrintln | mFatalln | mPanicln => fmt_Sprintln v
  end.

Definition ending_of (m : Method) (v : list Value) : Outcome unit :=
  match m with
  | mPrint | mPrintf _ | mPrintln => Returned tt
  | mFatal | mFatalf _ | mFatalln => Exited 1
  | mPanic | mPanicf _ | mPanicln => Panicked (text_of m v)
  end.

Definition is_print (m : Method) : bool :=
  match m with
  | mPrint | mPrintf _ | mPrintln => true
  | _ => false
  end.

Definition is_panic (m : Method) : bool :=
  match m with
  | mPanic | mPanicf _ | mPanicln => true
  | _ => false
  end.

(** The logger's method behind each method of a note pad. *)
Definition Logger_call (m : Method) (l : option log_Logger) (v : list Value)
    (st : State) : Outcome unit * State :=
  if is_panic m then Logger_panic l (text_of m v) st
  else Logger_emit l (text_of m v) st (ending_of m v).

(** The events a method adds when its logger writes on [w] with the
    prefix [pfx] and the flag [flg]: on [ioutil.Discard] nothing, or just the
    built message for the panic methods; otherwise the built message and
    the written line. *)
Definition emitted (m : Method) (v : list Value) (w : io_Writer)
    (pfx : string) (flg : Z) : list Event :=
  match w with
  | ioutil_Discard => if is_panic m then [Formatted (text_of m v)] else []
  | _ => [Formatted (text_of m v); Wrote w (mkLine pfx flg (text_of m v))]
  end.

(** The state with [es] added to its events; the state itself when there
    is nothing to add. *)
Definition add_events (es : list Event) (st : State) : State :=
  match es with
  | [] => st
  | _ => set_events (events st ++ es) st
  end.

(** The states a program reaches through the package's functions, starting
    from package initialisation; the file system may change in between.
    The state a call leaves is counted also when the call exits or panics,
    which only adds states. *)
Inductive reachable : State -> Prop :=
| reach_init fs : reachable (init fs)
| reach_SetLogThreshold level st :
    reachable st -> reachable (SetLogThreshold level st)
| reach_SetStdoutThreshold level st :
    reachable st -> reachable (SetStdoutThreshold level st)
| reach_SetLogFile path st :
    reachable st -> reachable (snd (SetLogFile path st))
| reach_SetLogFlag flag st :
    reachable st -> reachable (SetLogFlag flag st)
| reach_call m p v st :
    reachable st -> reachable (snd (NotePad_call m p v st))
| reach_os fs st :
    reachable st -> reachable (set_os_OpenFile fs st).

(** The derived part of the state is what [initialize] computes from the
    rest of it. *)
Definition rebuilt (st : State) : Prop :=
  BothHandle st = io_MultiWriter (LogHandle st) (OutHandle st) /\
  forall p,
    Handle (pads st p) = resolve st (pads st p) /\
    Logger (pads st p) =
      Some (log_New (Handle (pads st p)) (Prefix (pads st p)) (Flag st)).

(** Every note pad still has the level and prefix it was declared with. *)
Definition as_declared (st : State) : Prop :=
  forall p,
    n_Level (pads st p) = n_Level (pad0 p) /\
    Prefix (pads st p) = Prefix (pad0 p).

(** Two states hold the same configuration: same handles, flag and
    thresholds, and every note pad has the same four fields. *)
Definition same_config (a b : State) : Prop :=
  LogHandle a = LogHandle b /\
  OutHandle a = OutHandle b /\
  BothHandle a = BothHandle b /\
  Flag a = Flag b /\
  logThreshold a = logThreshold b /\
  outputThreshold a = outputThreshold b /\
  forall p, pads a p = pads b p.

(** From [st] to [st'] every note pad kept its level and its prefix. *)
Definition keeps_level_and_prefix (st st' : State) : Prop :=
  forall p,
    n_Level (pads st' p) = n_Level (pads st p) /\
    Prefix (pads st' p) = Prefix (pads st p).

(** The call that produced [r] from [st] formatted one message and wrote
    one line, on the writer [w]. *)
Definition performs_write (st : State) (r : Outcome unit * State) (w : io_Writer) : Prop :=
  exists l, events (snd r) = events st ++ [Formatted (ln_text l); Wrote w l].

(** What one line written on [w] adds to the output. *)
Definition written_to (w : io_Writer) (l : Line) : list (string * Line) :=
  map (fun name => (name, l)) (targets w).

(** A file system on which only "app.log" can be opened. *)
Definition only_app_log (path : string) : option string :=
  if String.eqb path "app.log" then None else Some "permission denied".

(** The state after [SetLogFile("app.log")] succeeded on a fresh package. *)
Definition logging_to_app_log : State :=
  snd (SetLogFile "app.log" (init only_app_log)).

(** * Properties *)

(** ** Basic facts about [initialize] *)

Lemma initialize_pads st p :
  pads (initialize st) p =
    let st1 := set_BothHandle (io_MultiWriter (LogHandle st) (OutHandle st)) st in
    let n := pads st p in
    mkNotePad (resolve st1 n) (n_Level n) (Prefix n)
              (Some (log_New (resolve st1 n) (Prefix n) (Flag st))).
Proof. destruct p; reflexivity. Qed.

Lemma initialize_LogHandle st : LogHandle (initialize st) = LogHandle st.
Proof. reflexivity. Qed.
Lemma initialize_OutHandle st : OutHandle (initialize st) = OutHandle st.
Proof. reflexivity. Qed.
Lemma initialize_BothHandle st :
  BothHandle (initialize st) = io_MultiWriter (LogHandle st) (OutHandle st).
Proof. reflexivity. Qed.
Lemma initialize_Flag st : Flag (initialize st) = Flag st.
Proof. reflexivity. Qed.
Lemma initialize_logThreshold st : logThreshold (initialize st) = logThreshold st.
Proof. reflexivity. Qed.
Lemma initialize_outputThreshold st :
  outputThreshold (initialize st) = outputThreshold st.
Proof. reflexivity. Qed.
Lemma initialize_os_OpenFile st : os_OpenFile (initialize st) = os_OpenFile st.
Proof. reflexivity. Qed.
Lemma initialize_events st : events (initialize st) = events st.
Proof. reflexivity. Qed.

Create Rewrite HintDb logger.
#[local] Hint Rewrite initialize_LogHandle initialize_OutHandle
  initialize_BothHandle initialize_Flag initialize_logThreshold
  initialize_outputThreshold initialize_os_OpenFile initialize_events
  initialize_pads : logger.

(** Rewrite every field read after [initialize]; the definition itself is
    never unfolded in a goal. *)
Ltac after_initialize :=
  repeat (progress (
    autorewrite with logger; cbn zeta;
    cbn [LogHandle OutHandle BothHandle Flag pads logThreshold outputThreshold
         os_OpenFile events set_LogHandle set_OutHandle set_BothHandle set_Flag
         set_pads set_logThreshold set_outputThreshold set_os_OpenFile set_events
         Handle n_Level Prefix Logger set_Handle set_Logger])).

Lemma resolve_destination st n :
  resolve st n =
    sink_of st (destination (n_Level n) (outputThreshold st) (logThreshold st)).
Proof.
  unfold resolve, destination.
  repeat (match goal with |- context [if ?b then _ else _] => destruct b end);
    reflexivity.
Qed.

(** Case analysis on every comparison of levels in the goal. *)
Ltac compare_levels :=
  rewrite ?Z.geb_leb in *;
  repeat match goal with
  | |- context [?a <? ?b] => destruct (Z.ltb_spec a b)
  | |- context [?a <=? ?b] => destruct (Z.leb_spec a b)
  end;
  simpl in *.

Lemma destination_cases level outT logT :
  (destination level outT logT = Discard <-> level < logT /\ level < outT) /\
  (destination level outT logT = Combined <-> level >= logT /\ level >= outT) /\
  (destination level outT logT = ConsoleOnly <-> level >= outT /\ level < logT) /\
  (destination level outT logT = LogOnly <-> level >= logT /\ level < outT).
Proof.
  unfold destination; compare_levels;
    repeat split; intros; try discriminate; try lia; try reflexivity.
Qed.

Lemma checkLevel_destination st n :
  NotePad_checkLevel st n = false <->
  destination (n_Level n) (outputThreshold st) (logThreshold st) = Discard.
Proof.
  unfold NotePad_checkLevel, destination; compare_levels;
    split; intros; try discriminate; try lia; reflexivity.
Qed.

(** C1: after a rebuild the note pad of a level [L] holds the handle of the
    branch [destination L outT logT], and that branch is: discard iff
    [L < logT] and [L < outT]; combined iff [L >= logT] and [L >= outT];
    console only iff [L >= outT] and [L < logT]; log only iff [L >= logT]
    and [L < outT].  This holds for every note pad, whatever its level and
    whatever the two thresholds. *)
Theorem C1_writer_resolution (st : State) (logT outT : Level) (p : PadRef) :
  let st' := initialize (set_outputThreshold outT (set_logThreshold logT st)) in
  let L := n_Level (pads st p) in
  let d := destination L outT logT in
  n_Level (pads st' p) = L /\
  Handle (pads st' p) = sink_of st' d /\
  Logger (pads st' p) = Some (log_New (sink_of st' d) (Prefix (pads st p)) (Flag st)) /\
  sink_of st' Combined = io_MultiWriter (LogHandle st) (OutHandle st) /\
  sink_of st' ConsoleOnly = OutHandle st /\
  sink_of st' LogOnly = LogHandle st /\
  (d = Discard <-> L < logT /\ L < outT) /\
  (d = Combined <-> L >= logT /\ L >= outT) /\
  (d = ConsoleOnly <-> L >= outT /\ L < logT) /\
  (d = LogOnly <-> L >= logT /\ L < outT).
Proof.
  intros st' L d. subst st'.
  rewrite initialize_pads. cbn zeta.
  rewrite resolve_destination. cbn [n_Level Handle Logger].
  destruct (destination_cases L outT logT) as (Hd & Hb & Hc & Hl).
  split_and!; try reflexivity; assumption.
Qed.

(** *** Reading the destination off the handle *)

Lemma MultiWriter_neq_left a : forall b, io_MultiWriter a b <> a.
Proof.
  induction a as [| name | a1 IH1 a2 IH2]; intros b H; try discriminate H.
  injection H as H1 H2. exact (IH1 _ H1).
Qed.

Lemma MultiWriter_neq_right b : forall a, io_MultiWriter a b <> b.
Proof.
  induction b as [| name | b1 IH1 b2 IH2]; intros a H; try discriminate H.
  injection H as H1 H2. exact (IH2 _ H2).
Qed.

(** When the log handle and the console handle are two different writers
    and neither is [ioutil.Discard], the four branches assign four different
    handles, so the handle of a note pad tells which branch was taken. *)
Lemma Handle_identifies_destination st p d :
  LogHandle st <> ioutil_Discard ->
  OutHandle st <> ioutil_Discard ->
  LogHandle st <> OutHandle st ->
  Handle (pads (initialize st) p) = sink_of (initialize st) d <->
  destination (n_Level (pads st p)) (outputThreshold st) (logThreshold st) = d.
Proof.
  intros Hl Ho Hlo. after_initialize. rewrite resolve_destination.
  pose proof (MultiWriter_neq_left (LogHandle st) (OutHandle st)) as Hbl.
  pose proof (MultiWriter_neq_right (OutHandle st) (LogHandle st)) as Hbo.
  destruct (destination _ _ _); destruct d; cbn [sink_of]; after_initialize;
    split; intros H; try reflexivity; try discriminate H;
    exfalso; congruence.
Qed.

(** With the log handle the package starts with, which is [ioutil.Discard],
    the log-only branch hands out a writer that discards: INFO is on that
    branch once the stdout threshold is Warn and it passes the guard, but
    its logger discards: Print returns without building a message, Fatal
    exits without one, and Panic builds its message and writes nothing. *)
Example log_only_on_default_log_handle fs :
  let st := SetStdoutThreshold LevelWarn (init fs) in
  destination LevelInfo (outputThreshold st) (logThreshold st) = LogOnly /\
  Handle (pads st INFO) = ioutil_Discard /\
  NotePad_checkLevel st (pads st INFO) = true /\
  NotePad_Print INFO [VString "x"] st = (Returned tt, st) /\
  NotePad_Fatal INFO [VString "x"] st = (Exited 1, st) /\
  fst (NotePad_Panic INFO [VString "x"] st) = Panicked (fmt_Sprint [VString "x"]) /\
  events (snd (NotePad_Panic INFO [VString "x"] st)) =
    [Formatted (fmt_Sprint [VString "x"])].
Proof. cbv zeta. split_and!; vm_compute; reflexivity. Qed.

(** ** The emission guard *)

Lemma checkLevel_false st n :
  NotePad_checkLevel st n = false <->
  n_Level n < outputThreshold st /\ n_Level n < logThreshold st.
Proof.
  unfold NotePad_checkLevel; compare_levels;
    split; intros; try discriminate; try lia; reflexivity.
Qed.

Lemma checkLevel_true st n :
  NotePad_checkLevel st n = true <->
  n_Level n >= outputThreshold st \/ n_Level n >= logThreshold st.
Proof.
  unfold NotePad_checkLevel; compare_levels;
    split; intros; try discriminate; try lia; reflexivity.
Qed.

(** Every method is the guard followed by the logger's method. *)
Lemma call_guarded m p v st :
  NotePad_call m p v st =
    if NotePad_checkLevel st (pads st p)
    then Logger_call m (Logger (pads st p)) v st
    else (Returned tt, st).
Proof.
  destruct m;
    unfold NotePad_call, NotePad_Print, NotePad_Printf, NotePad_Println,
      NotePad_Fatal, NotePad_Fatalf, NotePad_Fatalln,
      NotePad_Panic, NotePad_Panicf, NotePad_Panicln;
    destruct (NotePad_checkLevel st (pads st p)); reflexivity.
Qed.

Lemma events_add_events es st : events (add_events es st) = events st ++ es.
Proof. destruct es; [symmetry; apply app_nil_r | reflexivity]. Qed.

Lemma add_events_state es st : add_events es st = set_events (events st ++ es) st.
Proof.
  destruct es; [| reflexivity]. cbn [add_events]. rewrite app_nil_r.
  destruct st; reflexivity.
Qed.

(** On a non-nil logger each method ends as [ending_of] says and adds the
    events [emitted] lists. *)
Lemma Logger_call_Some m l v st :
  Logger_call m (Some l) v st =
    (ending_of m v, add_events (emitted m v (out l) (prefix l) (flag l)) st).
Proof.
  unfold Logger_call, Logger_panic, Logger_emit, Logger_output, isDiscard, emitted.
  destruct m; cbn [is_panic ending_of text_of]; destruct (out l); reflexivity.
Qed.

Lemma Logger_call_state m l v st :
  exists es, snd (Logger_call m l v st) = set_events (events st ++ es) st.
Proof.
  destruct l as [l |].
  - rewrite Logger_call_Some. cbn [snd]. eexists. apply add_events_state.
  - unfold Logger_call, Logger_panic, Logger_emit.
    destruct (is_panic m); cbn [snd].
    + eexists. reflexivity.
    + exists []. rewrite app_nil_r. destruct st; reflexivity.
Qed.

(** C3: a Print, Printf or Println call on a note pad whose level is
    strictly below the log threshold and strictly below the stdout threshold
    returns with the state it was given: no message is formatted and nothing
    is written on any writer. *)
Theorem C3_below_both_thresholds_noop (st : State) (p : PadRef)
    (format : string) (v : list Value) :
  n_Level (pads st p) < logThreshold st ->
  n_Level (pads st p) < outputThreshold st ->
  NotePad_Print p v st = (Returned tt, st) /\
  NotePad_Printf p format v st = (Returned tt, st) /\
  NotePad_Println p v st = (Returned tt, st).
Proof.
  intros Hlog Hout.
  assert (Hc : NotePad_checkLevel st (pads st p) = false)
    by (apply checkLevel_false; lia).
  unfold NotePad_Print, NotePad_Printf, NotePad_Println.
  rewrite Hc. auto.
Qed.

(** ** Clamping *)

Lemma levelCheck_range level :
  LevelTrace <= levelCheck level <= LevelFatal.
Proof.
  unfold levelCheck, LevelTrace, LevelFatal; compare_levels; lia.
Qed.

(** C5: both threshold setters store [levelCheck level]; that value lies in
    [[LevelTrace, LevelFatal]], is [LevelTrace] for every input at or below
    [LevelTrace], is [LevelFatal] for every input at or above [LevelFatal]
    ([LevelNone] included), is the input itself in between, and is never
    [LevelNone]. *)
Theorem C5_setters_clamp (level : Level) (st : State) :
  logThreshold (SetLogThreshold level st) = levelCheck level /\
  outputThreshold (SetStdoutThreshold level st) = levelCheck level /\
  LevelTrace <= levelCheck level <= LevelFatal /\
  (level <= LevelTrace -> levelCheck level = LevelTrace) /\
  (level >= LevelFatal -> levelCheck level = LevelFatal) /\
  (LevelTrace < level < LevelFatal -> levelCheck level = level) /\
  levelCheck LevelNone = LevelFatal /\
  levelCheck level <> LevelNone.
Proof.
  pose proof (levelCheck_range level) as Hr.
  split_and!; try reflexivity; try apply Hr.
  - clear Hr. intros H. unfold levelCheck, LevelTrace, LevelFatal in *. compare_levels; lia.
  - clear Hr. intros H. unfold levelCheck, LevelTrace, LevelFatal in *. compare_levels; lia.
  - clear Hr. intros H. unfold levelCheck, LevelTrace, LevelFatal in *. compare_levels; lia.
  - unfold LevelNone, LevelFatal in *. lia.
Qed.

(** ** Idempotence of the setters *)

Lemma initialize_twice st :
  same_config (initialize (initialize st)) (initialize st).
Proof.
  unfold same_config.
  split_and!; [| | | | | | intros p]; after_initialize; unfold resolve;
    after_initialize; reflexivity.
Qed.

(** C6: calling [SetLogThreshold], [SetStdoutThreshold] or [SetLogFlag] a
    second time with the same argument leaves the configuration as the first
    call left it; in particular every note pad keeps the same [Handle] and
    the same [Logger]. *)
Theorem C6_setters_idempotent (st : State) (level : Level) (flag : Z) :
  same_config (SetLogThreshold level (SetLogThreshold level st))
              (SetLogThreshold level st) /\
  same_config (SetStdoutThreshold level (SetStdoutThreshold level st))
              (SetStdoutThreshold level st) /\
  same_config (SetLogFlag flag (SetLogFlag flag st)) (SetLogFlag flag st).
Proof.
  unfold same_config, SetLogThreshold, SetStdoutThreshold, SetLogFlag.
  split_and!; try intros p; after_initialize; unfold resolve;
    after_initialize; reflexivity.
Qed.

(** ** The level-name table *)

(** C8: [LevelMatches] holds exactly the eight entries TRACE, DEBUG, INFO,
    WARN, ERROR, CRITICAL, FATAL, NONE, each name bound to the level
    constant of the same name; names are compared exactly (a lower-case name
    is not a key); and the eight constants are strictly increasing in that
    order. *)
Theorem C8_level_name_table :
  (forall (name : string) (level : Level),
     LevelMatches !! name = Some level <->
     In (name, level)
        [("TRACE", LevelTrace); ("DEBUG", LevelDebug); ("INFO", LevelInfo);
         ("WARN", LevelWarn); ("ERROR", LevelError);
         ("CRITICAL", LevelCritical); ("FATAL", LevelFatal);
         ("NONE", LevelNone)]) /\
  size LevelMatches = 8%nat /\
  LevelMatches !! "trace" = None /\
  LevelMatches !! "" = None /\
  (LevelTrace < LevelDebug /\ LevelDebug < LevelInfo /\ LevelInfo < LevelWarn /\
   LevelWarn < LevelError /\ LevelError < LevelCritical /\
   LevelCritical < LevelFatal /\ LevelFatal < LevelNone).
Proof.
  split_and!; try (vm_compute; reflexivity).
  intros name level. unfold LevelMatches. split.
  - rewrite !lookup_insert_Some, lookup_empty. cbn [In].
    intros H.
    repeat (destruct H as [[<- <-] | [_ H]]; [tauto |]).
    discriminate.
  - cbn [In]. intros H.
    repeat (destruct H as [H | H]; [inversion H; subst; vm_compute; reflexivity |]).
    contradiction.
Qed.

(** ** Frame: what no operation touches *)

Lemma initialize_keeps st : keeps_level_and_prefix st (initialize st).
Proof. intros p. after_initialize. split; reflexivity. Qed.

Lemma Logger_call_pads m l v st p :
  pads (snd (Logger_call m l v st)) p = pads st p.
Proof.
  destruct (Logger_call_state m l v st) as [es ->]. reflexivity.
Qed.

Lemma call_pads m q v st p :
  pads (snd (NotePad_call m q v st)) p = pads st p.
Proof.
  rewrite call_guarded.
  destruct (NotePad_checkLevel st (pads st q)); [apply Logger_call_pads | reflexivity].
Qed.

Lemma call_keeps m q v st :
  keeps_level_and_prefix st (snd (NotePad_call m q v st)).
Proof. intros p. rewrite call_pads. split; reflexivity. Qed.

Lemma SetLogFile_keeps path st :
  keeps_level_and_prefix st (snd (SetLogFile path st)).
Proof.
  intros p. unfold SetLogFile.
  destruct (os_OpenFile st path) as [err |].
  - pose proof (call_pads mPrintln CRITICAL
                  [VString "Failed to open log file:"; VString path; VError err]
                  st p) as Hp.
    cbn [NotePad_call] in Hp.
    destruct (NotePad_Println _ _ st) as [[| | |] st']; cbn [snd] in *;
      rewrite Hp; split; reflexivity.
  - cbn [snd]. after_initialize. split; reflexivity.
Qed.

Lemma SetLogThreshold_keeps level st :
  keeps_level_and_prefix st (SetLogThreshold level st).
Proof. intros p. unfold SetLogThreshold. after_initialize. split; reflexivity. Qed.

Lemma SetStdoutThreshold_keeps level st :
  keeps_level_and_prefix st (SetStdoutThreshold level st).
Proof. intros p. unfold SetStdoutThreshold. after_initialize. split; reflexivity. Qed.

Lemma SetLogFlag_keeps flag st :
  keeps_level_and_prefix st (SetLogFlag flag st).
Proof. intros p. unfold SetLogFlag. after_initialize. split; reflexivity. Qed.

(** C9: [initialize], and with it [SetLogThreshold], [SetStdoutThreshold],
    [SetLogFile] (whether the file opens or not) and [SetLogFlag], leave the
    [Level] and the [Prefix] of every note pad as they were; so do the nine
    emission methods.  A rebuild can therefore change nothing of a note pad
    but its [Handle] and its [Logger]. *)
Theorem C9_level_and_prefix_frame (st : State) :
  keeps_level_and_prefix st (initialize st) /\
  (forall level, keeps_level_and_prefix st (SetLogThreshold level st)) /\
  (forall level, keeps_level_and_prefix st (SetStdoutThreshold level st)) /\
  (forall path, keeps_level_and_prefix st (snd (SetLogFile path st))) /\
  (forall flag, keeps_level_and_prefix st (SetLogFlag flag st)) /\
  (forall m q v, keeps_level_and_prefix st (snd (NotePad_call m q v st))).
Proof.
  split_and!.
  - apply initialize_keeps.
  - intros level. apply SetLogThreshold_keeps.
  - intros level. apply SetStdoutThreshold_keeps.
  - intros path. apply SetLogFile_keeps.
  - intros flag. apply SetLogFlag_keeps.
  - intros m q v. apply call_keeps.
Qed.

(** ** The guard and the resolution rule agree *)

Lemma performs_write_grows st r w :
  performs_write st r w -> events (snd r) <> events st.
Proof.
  intros [l Hl] Heq. rewrite Heq in Hl.
  apply (f_equal (@length Event)) in Hl.
  rewrite length_app in Hl. cbn in Hl. lia.
Qed.

Lemma initialize_Handle st p :
  Handle (pads (initialize st) p) =
    sink_of (initialize st)
      (destination (n_Level (pads st p)) (outputThreshold st) (logThreshold st)).
Proof.
  after_initialize. rewrite resolve_destination. after_initialize.
  destruct (destination _ _ _); reflexivity.
Qed.

(** After a rebuild, a call that passes the guard goes to the logger made
    over the handle the rebuild gave the note pad. *)
Lemma call_after_initialize m p v st :
  let st' := initialize st in
  let n := pads st p in
  let d := destination (n_Level n) (outputThreshold st) (logThreshold st) in
  NotePad_call m p v st' =
    if NotePad_checkLevel st n
    then (ending_of m v,
          add_events (emitted m v (sink_of st' d) (Prefix n) (Flag st)) st')
    else (Returned tt, st').
Proof.
  intros st' n d. subst st' n d. rewrite call_guarded.
  unfold NotePad_checkLevel. after_initialize.
  destruct ((n_Level (pads st p) <? outputThreshold st)
            && (n_Level (pads st p) <? logThreshold st)); [reflexivity |].
  rewrite Logger_call_Some. cbn [out prefix flag].
  rewrite resolve_destination. after_initialize. reflexivity.
Qed.

(** The handle of a branch discards only on the discard branch, or when the
    branch hands out a log or console handle that is [ioutil.Discard]. *)
Lemma sink_of_discards st d :
  sink_of (initialize st) d = ioutil_Discard <->
  d = Discard \/
  (d = LogOnly /\ LogHandle st = ioutil_Discard) \/
  (d = ConsoleOnly /\ OutHandle st = ioutil_Discard).
Proof.
  destruct d; cbn [sink_of]; after_initialize; split; intros H;
    try discriminate H; auto;
    destruct H as [H | [[H1 H2] | [H1 H2]]]; try discriminate; auto.
Qed.

(** What a Print, Printf or Println call does after a rebuild, by the
    handle of the note pad. *)
Lemma print_after_initialize m p v st :
  is_print m = true ->
  let st' := initialize st in
  let n := pads st p in
  let w := sink_of st' (destination (n_Level n) (outputThreshold st) (logThreshold st)) in
  (w = ioutil_Discard -> NotePad_call m p v st' = (Returned tt, st')) /\
  (w <> ioutil_Discard ->
   NotePad_call m p v st' =
     (Returned tt,
      set_events (events st' ++
                    [Formatted (text_of m v);
                     Wrote w (mkLine (Prefix n) (Flag st) (text_of m v))]) st')).
Proof.
  intros Hm. cbv zeta. rewrite call_after_initialize. cbv zeta.
  assert (He : ending_of m v = Returned tt)
    by (destruct m; try discriminate Hm; reflexivity).
  rewrite He.
  assert (Hp : is_panic m = false) by (destruct m; try discriminate Hm; reflexivity).
  pose proof (checkLevel_destination st (pads st p)) as [Hg _].
  destruct (NotePad_checkLevel st (pads st p)).
  - unfold emitted. rewrite Hp.
    destruct (sink_of (initialize st) _) eqn:Hw; split; intros H;
      try discriminate H; try reflexivity; contradiction.
  - rewrite (Hg eq_refl). cbn [sink_of]. split; intros H;
      [reflexivity | contradiction].
Qed.

Lemma performs_write_after_initialize m p v st :
  is_print m = true ->
  let st' := initialize st in
  let w := sink_of st' (destination (n_Level (pads st p))
                          (outputThreshold st) (logThreshold st)) in
  performs_write st' (NotePad_call m p v st') w <-> w <> ioutil_Discard.
Proof.
  intros Hm. cbv zeta.
  destruct (print_after_initialize m p v st Hm) as [Hd Hw]. cbv zeta in Hd, Hw.
  destruct (sink_of (initialize st) _) eqn:Hs.
  - rewrite (Hd eq_refl). split; [| intros H; contradiction].
    intros H. apply performs_write_grows in H. exfalso. apply H. reflexivity.
  - split; [discriminate |]. intros _. rewrite Hw by discriminate.
    eexists (mkLine _ _ _). reflexivity.
  - split; [discriminate |]. intros _. rewrite Hw by discriminate.
    eexists (mkLine _ _ _). reflexivity.
Qed.

(** C10, in the form the code satisfies: [checkLevel] returns false exactly
    when the if-chain of [initialize] takes its discard branch for the note
    pad's level.  After a rebuild a Print, Printf or Println call builds
    its message and writes a line, on the handle of the note pad, if and
    only if that handle is not [ioutil.Discard]; the handle is
    [ioutil.Discard] on the discard branch, and also on the log-only branch
    when the log handle is [ioutil.Discard] and on the console-only branch
    when the console handle is; on such a handle the call leaves the state
    untouched. *)
Theorem C10_guard_matches_resolution (st : State) (p : PadRef)
    (format : string) (v : list Value) :
  let n := pads st p in
  let d := destination (n_Level n) (outputThreshold st) (logThreshold st) in
  let st' := initialize st in
  (NotePad_checkLevel st n = false <-> d = Discard) /\
  Handle (pads st' p) = sink_of st' d /\
  (sink_of st' d = ioutil_Discard <->
   d = Discard \/
   (d = LogOnly /\ LogHandle st = ioutil_Discard) \/
   (d = ConsoleOnly /\ OutHandle st = ioutil_Discard)) /\
  (performs_write st' (NotePad_Print p v st') (sink_of st' d) <->
   sink_of st' d <> ioutil_Discard) /\
  (performs_write st' (NotePad_Printf p format v st') (sink_of st' d) <->
   sink_of st' d <> ioutil_Discard) /\
  (performs_write st' (NotePad_Println p v st') (sink_of st' d) <->
   sink_of st' d <> ioutil_Discard) /\
  (sink_of st' d = ioutil_Discard ->
   NotePad_Print p v st' = (Returned tt, st') /\
   NotePad_Printf p format v st' = (Returned tt, st') /\
   NotePad_Println p v st' = (Returned tt, st')).
Proof.
  cbv zeta.
  split; [apply checkLevel_destination |].
  split; [apply initialize_Handle |].
  split; [apply sink_of_discards |].
  split; [exact (performs_write_after_initialize mPrint p v st eq_refl) |].
  split; [exact (performs_write_after_initialize (mPrintf format) p v st eq_refl) |].
  split; [exact (performs_write_after_initialize mPrintln p v st eq_refl) |].
  intros Hw.
  split; [exact (proj1 (print_after_initialize mPrint p v st eq_refl) Hw) |].
  split; [exact (proj1 (print_after_initialize (mPrintf format) p v st eq_refl) Hw) |].
  exact (proj1 (print_after_initialize mPrintln p v st eq_refl) Hw).
Qed.

(** C10, as stated, fails for a destination that is not the discard one but
    whose handle discards: on a fresh package with the stdout threshold
    raised to Warn, INFO passes [checkLevel] and is on the log-only branch,
    yet a Print on it after the rebuild writes nothing and builds no
    message, because the log handle is still [ioutil.Discard]. *)
Lemma C10_log_only_over_discard_writes_nothing :
  let st := set_outputThreshold LevelWarn (init only_app_log) in
  let st' := initialize st in
  let d := destination (n_Level (pads st INFO)) (outputThreshold st) (logThreshold st) in
  NotePad_checkLevel st (pads st INFO) = true /\
  d = LogOnly /\ d <> Discard /\
  NotePad_Print INFO [VString "x"] st' = (Returned tt, st') /\
  ~ performs_write st' (NotePad_Print INFO [VString "x"] st') (sink_of st' d).
Proof.
  cbv zeta. split_and!.
  - vm_compute. reflexivity.
  - vm_compute. reflexivity.
  - vm_compute. discriminate.
  - vm_compute. reflexivity.
  - intros [l Hl]. apply (f_equal (@length Event)) in Hl.
    rewrite length_app in Hl. vm_compute in Hl. discriminate Hl.
Qed.

(** ** Invariants of the reachable states *)

Lemma initialize_rebuilt st : rebuilt (initialize st).
Proof.
  split; [reflexivity |]. intros p. after_initialize. unfold resolve.
  after_initialize. split; reflexivity.
Qed.

Lemma rebuilt_set_events es st : rebuilt st -> rebuilt (set_events es st).
Proof. intros H. exact H. Qed.

Lemma rebuilt_set_os_OpenFile fs st : rebuilt st -> rebuilt (set_os_OpenFile fs st).
Proof. intros H. exact H. Qed.

(** An emission method changes nothing but [events]. *)
Lemma call_state m p v st :
  exists es, snd (NotePad_call m p v st) = set_events (events st ++ es) st.
Proof.
  rewrite call_guarded.
  destruct (NotePad_checkLevel st (pads st p)).
  - apply Logger_call_state.
  - exists []. rewrite app_nil_r. destruct st; reflexivity.
Qed.

(** So does [SetLogFile] when the file does not open. *)
Lemma SetLogFile_failure_state path err st :
  os_OpenFile st path = Some err ->
  snd (SetLogFile path st) =
    snd (NotePad_Println CRITICAL
           [VString "Failed to open log file:"; VString path; VError err] st).
Proof.
  intros Hopen. unfold SetLogFile. rewrite Hopen.
  destruct (NotePad_Println _ _ st) as [[| | |] st']; reflexivity.
Qed.

Lemma reachable_rebuilt st : reachable st -> rebuilt st.
Proof.
  induction 1 as [fs | level st _ _ | level st _ _ | path st _ IH
                 | flag st _ _ | m p v st _ IH | fs st _ IH].
  - apply initialize_rebuilt.
  - apply initialize_rebuilt.
  - apply initialize_rebuilt.
  - destruct (os_OpenFile st path) as [err |] eqn:Hopen.
    + rewrite (SetLogFile_failure_state path err st Hopen).
      destruct (call_state mPrintln CRITICAL
                  [VString "Failed to open log file:"; VString path; VError err] st)
        as [es Hes].
      cbn [NotePad_call] in Hes. rewrite Hes. apply rebuilt_set_events, IH.
    + unfold SetLogFile. rewrite Hopen. cbn [snd]. apply initialize_rebuilt.
  - apply initialize_rebuilt.
  - destruct (call_state m p v st) as [es Hes]. rewrite Hes.
    apply rebuilt_set_events, IH.
  - apply rebuilt_set_os_OpenFile, IH.
Qed.

Lemma keeps_as_declared st st' :
  keeps_level_and_prefix st st' -> as_declared st -> as_declared st'.
Proof.
  intros Hk Hd p. destruct (Hk p) as [-> ->]. apply Hd.
Qed.

Lemma reachable_as_declared st : reachable st -> as_declared st.
Proof.
  induction 1 as [fs | level st _ IH | level st _ IH | path st _ IH
                 | flag st _ IH | m p v st _ IH | fs st _ IH].
  - intros p. unfold init. after_initialize. split; reflexivity.
  - eapply keeps_as_declared; [| exact IH]. apply SetLogThreshold_keeps.
  - eapply keeps_as_declared; [| exact IH]. apply SetStdoutThreshold_keeps.
  - eapply keeps_as_declared; [| exact IH]. apply SetLogFile_keeps.
  - eapply keeps_as_declared; [| exact IH]. apply SetLogFlag_keeps.
  - eapply keeps_as_declared; [| exact IH]. apply call_keeps.
  - exact IH.
Qed.

(** The level each of the seven note pads was declared with. *)
Lemma declared_levels :
  n_Level (pad0 TRACE) = LevelTrace /\ n_Level (pad0 DEBUG) = LevelDebug /\
  n_Level (pad0 INFO) = LevelInfo /\ n_Level (pad0 WARN) = LevelWarn /\
  n_Level (pad0 ERROR) = LevelError /\ n_Level (pad0 CRITICAL) = LevelCritical /\
  n_Level (pad0 FATAL) = LevelFatal.
Proof. repeat split. Qed.

(** ** Emitting after the thresholds were set *)

Lemma output_app es es' : output (es ++ es') = output es ++ output es'.
Proof. apply flat_map_app. Qed.

Lemma output_after_write es t w l :
  output (es ++ [Formatted t; Wrote w l]) = output es ++ written_to w l.
Proof.
  rewrite output_app. cbn [output flat_map delivered].
  rewrite app_nil_l, app_nil_r. reflexivity.
Qed.

Lemma written_to_MultiWriter a b l :
  written_to (io_MultiWriter a b) l = written_to a l ++ written_to b l.
Proof. unfold written_to. cbn [targets]. apply map_app. Qed.

(** Whatever the method and the writer, the events a call adds put one copy
    of the line on every file of the writer, and nothing else. *)
Lemma output_emitted m v w pfx flg :
  output (emitted m v w pfx flg) = written_to w (mkLine pfx flg (text_of m v)).
Proof.
  unfold emitted. destruct w; [destruct (is_panic m); reflexivity | |];
    cbn [output flat_map delivered]; rewrite app_nil_r; reflexivity.
Qed.

Lemma output_add_emitted m v w pfx flg st :
  output (events (add_events (emitted m v w pfx flg) st)) =
    output (events st) ++ written_to w (mkLine pfx flg (text_of m v)).
Proof. rewrite events_add_events, output_app, output_emitted. reflexivity. Qed.

(** The same, read off the destination instead of the guard. *)
Lemma call_by_destination m p v st :
  NotePad_call m p v (initialize st) =
    match destination (n_Level (pads st p)) (outputThreshold st) (logThreshold st) with
    | Discard => (Returned tt, initialize st)
    | d =>
        (ending_of m v,
         add_events (emitted m v (sink_of (initialize st) d)
                             (Prefix (pads st p)) (Flag st))
                    (initialize st))
    end.
Proof.
  rewrite call_after_initialize. cbv zeta.
  pose proof (checkLevel_destination st (pads st p)) as [Hg Hg'].
  destruct (NotePad_checkLevel st (pads st p));
    destruct (destination _ _ _); try reflexivity.
  - discriminate (Hg' eq_refl).
  - discriminate (Hg eq_refl).
  - discriminate (Hg eq_refl).
  - discriminate (Hg eq_refl).
Qed.

(** What a call does once both thresholds have been set through the
    setters. *)
Lemma call_after_thresholds st logT outT m p v :
  let st' := SetStdoutThreshold outT (SetLogThreshold logT st) in
  let n := pads st p in
  let added w := add_events (emitted m v w (Prefix n) (Flag st)) st' in
  NotePad_call m p v st' =
    match destination (n_Level n) (levelCheck outT) (levelCheck logT) with
    | Discard => (Returned tt, st')
    | Combined =>
        (ending_of m v, added (io_MultiWriter (LogHandle st) (OutHandle st)))
    | ConsoleOnly => (ending_of m v, added (OutHandle st))
    | LogOnly => (ending_of m v, added (LogHandle st))
    end.
Proof.
  cbv zeta. unfold SetStdoutThreshold.
  rewrite call_by_destination. unfold SetLogThreshold. after_initialize.
  destruct (destination _ _ _); cbn [sink_of]; after_initialize; reflexivity.
Qed.

Lemma print_ending m v : is_print m = true -> ending_of m v = Returned tt.
Proof. destruct m; intros H; try discriminate H; reflexivity. Qed.

(** The scenarios, for any two thresholds given as level constants. *)
Lemma scenario_step st logT outT m p v :
  as_declared st -> is_print m = true ->
  let st' := SetStdoutThreshold outT (SetLogThreshold logT st) in
  let line := mkLine (Prefix (pad0 p)) (Flag st) (text_of m v) in
  match destination (n_Level (pad0 p)) (levelCheck outT) (levelCheck logT) with
  | Discard => NotePad_call m p v st' = (Returned tt, st')
  | Combined =>
      fst (NotePad_call m p v st') = Returned tt /\
      output (events (snd (NotePad_call m p v st'))) =
        output (events st') ++
        written_to (LogHandle st') line ++ written_to (OutHandle st') line
  | ConsoleOnly =>
      fst (NotePad_call m p v st') = Returned tt /\
      output (events (snd (NotePad_call m p v st'))) =
        output (events st') ++ written_to (OutHandle st') line
  | LogOnly =>
      fst (NotePad_call m p v st') = Returned tt /\
      output (events (snd (NotePad_call m p v st'))) =
        output (events st') ++ written_to (LogHandle st') line
  end.
Proof.
  intros Hd Hm. cbv zeta. rewrite call_after_thresholds. cbv zeta.
  destruct (Hd p) as [-> ->]. rewrite (print_ending m v Hm).
  unfold SetStdoutThreshold, SetLogThreshold.
  destruct (destination _ _ _); cbn [fst snd];
    rewrite ?output_add_emitted, ?written_to_MultiWriter;
    after_initialize; auto.
Qed.

(** C7: with both thresholds set to Info, a Print, Printf or Println call
    at Debug leaves the state untouched (no output on any file), and one at
    Info or at Warn adds its line to the files of the log handle and to the
    files of the console handle.  With the log threshold set to Error and
    the stdout threshold to Info, a call at Warn adds its line to the files
    of the console handle only, and one at Error to those of both handles. *)
Theorem C7_threshold_scenarios (st : State) (m : Method) (v : list Value) :
  reachable st -> is_print m = true ->
  let both_info := SetStdoutThreshold LevelInfo (SetLogThreshold LevelInfo st) in
  let error_info := SetStdoutThreshold LevelInfo (SetLogThreshold LevelError st) in
  let line p := mkLine (Prefix (pad0 p)) (Flag st) (text_of m v) in
  NotePad_call m DEBUG v both_info = (Returned tt, both_info) /\
  (fst (NotePad_call m INFO v both_info) = Returned tt /\
   output (events (snd (NotePad_call m INFO v both_info))) =
     output (events both_info) ++
     written_to (LogHandle both_info) (line INFO) ++
     written_to (OutHandle both_info) (line INFO)) /\
  (fst (NotePad_call m WARN v both_info) = Returned tt /\
   output (events (snd (NotePad_call m WARN v both_info))) =
     output (events both_info) ++
     written_to (LogHandle both_info) (line WARN) ++
     written_to (OutHandle both_info) (line WARN)) /\
  (fst (NotePad_call m WARN v error_info) = Returned tt /\
   output (events (snd (NotePad_call m WARN v error_info))) =
     output (events error_info) ++
     written_to (OutHandle error_info) (line WARN)) /\
  (fst (NotePad_call m ERROR v error_info) = Returned tt /\
   output (events (snd (NotePad_call m ERROR v error_info))) =
     output (events error_info) ++
     written_to (LogHandle error_info) (line ERROR) ++
     written_to (OutHandle error_info) (line ERROR)).
Proof.
  intros Hr Hm. apply reachable_as_declared in Hr. cbv zeta.
  split; [| split; [| split; [| split]]].
  - exact (scenario_step st LevelInfo LevelInfo m DEBUG v Hr Hm).
  - exact (scenario_step st LevelInfo LevelInfo m INFO v Hr Hm).
  - exact (scenario_step st LevelInfo LevelInfo m WARN v Hr Hm).
  - exact (scenario_step st LevelError LevelInfo m WARN v Hr Hm).
  - exact (scenario_step st LevelError LevelInfo m ERROR v Hr Hm).
Qed.

(** ** A log file that cannot be opened *)

(** In a rebuilt state every method goes to the logger made over the handle
    of the note pad's destination, or does nothing when that is the discard
    one. *)
Lemma call_rebuilt m p v st :
  rebuilt st ->
  NotePad_call m p v st =
    match destination (n_Level (pads st p)) (outputThreshold st) (logThreshold st) with
    | Discard => (Returned tt, st)
    | d =>
        (ending_of m v,
         add_events (emitted m v (sink_of st d) (Prefix (pads st p)) (Flag st)) st)
    end.
Proof.
  intros [_ Hp]. destruct (Hp p) as [Hh Hl].
  rewrite call_guarded.
  pose proof (checkLevel_destination st (pads st p)) as [Hg Hg'].
  rewrite resolve_destination in Hh.
  rewrite Hl, Logger_call_Some, Hh. cbn [out prefix flag].
  destruct (NotePad_checkLevel st (pads st p));
    destruct (destination _ _ _); try reflexivity.
  - discriminate (Hg' eq_refl).
  - discriminate (Hg eq_refl).
  - discriminate (Hg eq_refl).
  - discriminate (Hg eq_refl).
Qed.

Lemma same_config_set_events es st : same_config (set_events es st) st.
Proof. repeat split. Qed.

Lemma same_config_refl st : same_config st st.
Proof. repeat split. Qed.

(** A level at or above the log threshold is sent to the log handle, alone
    or together with the console handle. *)
Lemma destination_reaches_log level outT logT :
  level >= logT ->
  destination level outT logT = Combined \/ destination level outT logT = LogOnly.
Proof.
  intros H. unfold destination. compare_levels; auto; lia.
Qed.

(** In a rebuilt state the handle of a note pad is [ioutil.Discard] on the
    discard branch, on the log-only branch over a discarding log handle and
    on the console-only branch over a discarding console handle, and in no
    other case. *)
Lemma rebuilt_Handle_discards st p :
  rebuilt st ->
  let L := n_Level (pads st p) in
  Handle (pads st p) = ioutil_Discard <->
  (L < logThreshold st /\ L < outputThreshold st) \/
  (L >= logThreshold st /\ L < outputThreshold st /\ LogHandle st = ioutil_Discard) \/
  (L >= outputThreshold st /\ L < logThreshold st /\ OutHandle st = ioutil_Discard).
Proof.
  intros [HB Hp]. cbv zeta. destruct (Hp p) as [-> _].
  rewrite resolve_destination.
  destruct (destination_cases (n_Level (pads st p)) (outputThreshold st)
              (logThreshold st)) as (Hd & Hc & Hco & Hlo).
  destruct (destination _ _ _); cbn [sink_of]; rewrite ?HB.
  - destruct (proj1 Hd eq_refl). split; [intros _; left; lia | reflexivity].
  - destruct (proj1 Hc eq_refl). split; [discriminate |].
    intros [Hx | [Hx | Hx]]; lia.
  - destruct (proj1 Hco eq_refl). split.
    + intros Hx. right. right. split_and!; [lia | lia | exact Hx].
    + intros [Hx | [Hx | Hx]]; [lia | lia | apply Hx].
  - destruct (proj1 Hlo eq_refl). split.
    + intros Hx. right. left. split_and!; [lia | lia | exact Hx].
    + intros [Hx | [Hx | Hx]]; [lia | apply Hx | lia].
Qed.


(** The second silent configuration: on a fresh package with the stdout
    threshold raised to Fatal, Critical clears the log threshold only, and
    the log handle is still [ioutil.Discard]: the failed open is reported to
    the caller and nothing is built or written. *)
Example no_diagnostic_over_the_default_log_handle :
  let st := SetStdoutThreshold LevelFatal (init only_app_log) in
  LevelCritical >= logThreshold st /\
  Handle (pads st CRITICAL) = ioutil_Discard /\
  SetLogFile "/var/log/x.log" st = (Returned (Some "permission denied"), st).
Proof. cbv zeta. split_and!; vm_compute; try reflexivity; discriminate. Qed.


(** ** Fatal and Panic *)

(** In a rebuilt state a method ends the way the logger's method does
    exactly when the guard passes; otherwise it returns. *)
Lemma call_ending m p v st :
  rebuilt st ->
  fst (NotePad_call m p v st) =
    if NotePad_checkLevel st (pads st p) then ending_of m v else Returned tt.
Proof.
  intros [_ Hp]. destruct (Hp p) as [_ Hl].
  rewrite call_guarded, Hl, Logger_call_Some.
  destruct (NotePad_checkLevel st (pads st p)); reflexivity.
Qed.

(** With the thresholds lowered to Trace, a Fatal on TRACE does exit. *)
Example fatal_on_TRACE_with_trace_threshold fs v :
  fst (NotePad_Fatal TRACE v
         (SetStdoutThreshold LevelTrace (SetLogThreshold LevelTrace (init fs)))) =
  Exited 1.
Proof. vm_compute. reflexivity. Qed.

(** C2: right after package initialisation, where both thresholds are Info,
    every fatal and every panic method called on TRACE returns to its caller
    with the state untouched: nothing is written, the process is not
    terminated and no panic is raised. *)
Theorem C2_fatal_on_TRACE_returns (fs : string -> option string)
    (format : string) (v : list Value) :
  let st := init fs in
  NotePad_Fatal TRACE v st = (Returned tt, st) /\
  NotePad_Fatalf TRACE format v st = (Returned tt, st) /\
  NotePad_Fatalln TRACE v st = (Returned tt, st) /\
  NotePad_Panic TRACE v st = (Returned tt, st) /\
  NotePad_Panicf TRACE format v st = (Returned tt, st) /\
  NotePad_Panicln TRACE v st = (Returned tt, st).
Proof. cbv zeta. split_and!; vm_compute; reflexivity. Qed.

(** ** Instances *)

(** A Println at Info with "app.log" as log file: one line, delivered to
    the log file and then to standard output. *)
Example println_INFO_reaches_both_files :
  output (events (snd (NotePad_Println INFO [VString "started"] logging_to_app_log))) =
    [("app.log", mkLine "[I]: " 3 (fmt_Sprintln [VString "started"]));
     ("/dev/stdout", mkLine "[I]: " 3 (fmt_Sprintln [VString "started"]))].
Proof. vm_compute. reflexivity. Qed.

(** With the log threshold raised to Error, a Warn line goes to standard
    output only and an Error line to both files. *)
Example warn_and_error_after_SetLogThreshold_Error :
  let st := SetLogThreshold LevelError logging_to_app_log in
  output (events (snd (NotePad_Print WARN [VString "w"] st))) =
    [("/dev/stdout", mkLine "[W]: " 3 (fmt_Sprint [VString "w"]))] /\
  output (events (snd (NotePad_Print ERROR [VString "e"] st))) =
    [("app.log", mkLine "[E]: " 3 (fmt_Sprint [VString "e"]));
     ("/dev/stdout", mkLine "[E]: " 3 (fmt_Sprint [VString "e"]))].
Proof. cbv zeta. split; vm_compute; reflexivity. Qed.

(** The setters clamp: -3 becomes Trace, None and 42 become Fatal. *)
Example levelCheck_samples :
  levelCheck (-3) = LevelTrace /\ levelCheck LevelNone = LevelFatal /\
  levelCheck 42 = LevelFatal /\ levelCheck LevelWarn = LevelWarn.
Proof. repeat split. Qed.

Lemma C3_below_both_thresholds_noop_witness :
  let st := init only_app_log in
  n_Level (pads st TRACE) < logThreshold st /\
  n_Level (pads st TRACE) < outputThreshold st /\
  NotePad_Print TRACE [VString "x"] st = (Returned tt, st) /\
  NotePad_Printf TRACE "%s" [VString "x"] st = (Returned tt, st) /\
  NotePad_Println TRACE [VString "x"] st = (Returned tt, st).
Proof.
  cbv zeta.
  split; [vm_compute; reflexivity | split; [vm_compute; reflexivity |]].
  apply (C3_below_both_thresholds_noop (init only_app_log) TRACE "%s" [VString "x"]);
    vm_compute; reflexivity.
Defined.


Lemma C7_threshold_scenarios_witness :
  reachable logging_to_app_log /\
  is_print mPrintln = true /\
  let both_info :=
    SetStdoutThreshold LevelInfo (SetLogThreshold LevelInfo logging_to_app_log) in
  NotePad_call mPrintln DEBUG [VString "x"] both_info = (Returned tt, both_info).
Proof.
  assert (Hr : reachable logging_to_app_log)
    by (apply reach_SetLogFile, reach_init).
  split; [exact Hr | split; [reflexivity |]].
  exact (proj1 (C7_threshold_scenarios logging_to_app_log mPrintln [VString "x"]
                  Hr eq_refl)).
Defined.

(** * Further properties of the package *)

(** ** Shared lemmas *)

Lemma in_output_after_write es t w l name :
  In name (targets w) ->
  In (name, l) (output (es ++ [Formatted t; Wrote w l])).
Proof.
  intros Hin. rewrite output_after_write. apply in_or_app. right.
  unfold written_to. apply in_map_iff. exists name. split; [reflexivity | exact Hin].
Qed.

(** The only line among the events a call adds is the one made of the
    given prefix, flag and message, on the given writer. *)
Lemma In_Wrote_emitted m v w pfx flg w' l :
  In (Wrote w' l) (emitted m v w pfx flg) ->
  w' = w /\ l = mkLine pfx flg (text_of m v).
Proof.
  unfold emitted. destruct w; [destruct (is_panic m) | |]; cbn [In];
    intros H; repeat (destruct H as [H | H]); try discriminate H;
    try contradiction; injection H as <- <-; auto.
Qed.

Lemma ending_not_nil m v : ending_of m v <> NilDereference.
Proof. destruct m; discriminate. Qed.

(** The two thresholds only ever hold values [levelCheck] produced, or the
    defaults. *)
Lemma reachable_threshold_range st :
  reachable st ->
  (LevelTrace <= logThreshold st <= LevelFatal) /\
  (LevelTrace <= outputThreshold st <= LevelFatal).
Proof.
  induction 1 as [fs | level st _ IH | level st _ IH | path st _ IH
                 | flag st _ IH | m p v st _ IH | fs st _ IH].
  - unfold init, package_vars. after_initialize.
    unfold DefaultLogThreshold, DefaultStdoutThreshold, LevelTrace, LevelInfo,
      LevelFatal. lia.
  - unfold SetLogThreshold. after_initialize.
    split; [apply levelCheck_range | apply IH].
  - unfold SetStdoutThreshold. after_initialize.
    split; [apply IH | apply levelCheck_range].
  - destruct (os_OpenFile st path) as [err |] eqn:Hopen.
    + rewrite (SetLogFile_failure_state path err st Hopen).
      destruct (call_state mPrintln CRITICAL
                  [VString "Failed to open log file:"; VString path; VError err] st)
        as [es Hes].
      cbn [NotePad_call] in Hes. rewrite Hes. exact IH.
    + unfold SetLogFile. rewrite Hopen. cbn [snd]. after_initialize. exact IH.
  - unfold SetLogFlag. after_initialize. exact IH.
  - destruct (call_state m p v st) as [es Hes]. rewrite Hes. exact IH.
  - exact IH.
Qed.

(** ** SetLogFile when the file opens (lines 198-207) *)

(** X1: when [os.OpenFile] succeeds on [path], [SetLogFile] returns nil,
    makes the opened file the log handle and rebuilds: [BothHandle] is the
    MultiWriter of the new file and the console handle, the console handle,
    the flag and both thresholds are as before, nothing is written by the
    call itself, and from then on every method called on a note pad whose
    level is at or above the log threshold ends as the logger's method does
    and delivers its line to [path]. *)
Theorem X1_SetLogFile_success (st : State) (path : string) :
  os_OpenFile st path = None ->
  let st' := snd (SetLogFile path st) in
  fst (SetLogFile path st) = Returned None /\
  LogHandle st' = os_File path /\
  BothHandle st' = io_MultiWriter (os_File path) (OutHandle st) /\
  OutHandle st' = OutHandle st /\
  Flag st' = Flag st /\
  logThreshold st' = logThreshold st /\
  outputThreshold st' = outputThreshold st /\
  events st' = events st /\
  (forall m p v,
     n_Level (pads st p) >= logThreshold st ->
     fst (NotePad_call m p v st') = ending_of m v /\
     In (path, mkLine (Prefix (pads st p)) (Flag st) (text_of m v))
        (output (events (snd (NotePad_call m p v st'))))).
Proof.
  intros Hopen. cbv zeta. unfold SetLogFile. rewrite Hopen. cbn [fst snd].
  split_and!; try (after_initialize; reflexivity).
  intros m p v Hlvl. rewrite call_by_destination. after_initialize.
  destruct (destination_reaches_log _ (outputThreshold st) _ Hlvl) as [-> | ->];
    cbn [fst snd sink_of]; after_initialize;
    (split; [reflexivity |]); apply in_output_after_write; cbn [targets];
    [apply in_or_app; left |]; left; reflexivity.
Qed.

Lemma X1_SetLogFile_success_witness :
  os_OpenFile (init only_app_log) "app.log" = None /\
  fst (SetLogFile "app.log" (init only_app_log)) = Returned None /\
  LogHandle (snd (SetLogFile "app.log" (init only_app_log))) = os_File "app.log".
Proof.
  assert (Ho : os_OpenFile (init only_app_log) "app.log" = None)
    by (vm_compute; reflexivity).
  pose proof (X1_SetLogFile_success (init only_app_log) "app.log" Ho)
    as (H1 & H2 & _).
  split; [exact Ho | split; [exact H1 | exact H2]].
Defined.

(** ** SetLogFlag (lines 209-212) *)

(** X2: [SetLogFlag(flag)] stores the flag and rebuilds every logger with
    it: handles and thresholds are as a plain rebuild leaves them, nothing is
    written by the call, every note pad's logger carries [flag], and a later
    method call changes nothing but the events, where every line it writes
    is made of the note pad's prefix and [flag]. *)
Theorem X2_SetLogFlag_reaches_every_logger (st : State) (flag : Z) :
  let st' := SetLogFlag flag st in
  Flag st' = flag /\
  LogHandle st' = LogHandle st /\
  OutHandle st' = OutHandle st /\
  logThreshold st' = logThreshold st /\
  outputThreshold st' = outputThreshold st /\
  events st' = events st /\
  (forall p,
     Handle (pads st' p) = Handle (pads (initialize st) p) /\
     Logger (pads st' p) =
       Some (log_New (Handle (pads st' p)) (Prefix (pads st p)) flag)) /\
  (forall m p v,
     exists es,
       snd (NotePad_call m p v st') = set_events (events st' ++ es) st' /\
       forall w l,
         In (Wrote w l) es ->
         ln_flag l = flag /\ ln_prefix l = Prefix (pads st p) /\
         ln_text l = text_of m v).
Proof.
  cbv zeta. unfold SetLogFlag.
  split_and!; try (after_initialize; reflexivity).
  - intros p. after_initialize. unfold resolve. after_initialize.
    split; reflexivity.
  - intros m p v. rewrite call_by_destination.
    destruct (destination _ _ _); cbn [snd].
    + exists []. split; [exact (add_events_state [] _) | intros w l []].
    + eexists. split; [apply add_events_state |].
      intros w l Hin. apply In_Wrote_emitted in Hin as [_ ->]. auto.
    + eexists. split; [apply add_events_state |].
      intros w l Hin. apply In_Wrote_emitted in Hin as [_ ->]. auto.
    + eexists. split; [apply add_events_state |].
      intros w l Hin. apply In_Wrote_emitted in Hin as [_ ->]. auto.
Qed.

(** ** What holds in every reachable state *)

(** X3: in every state the package can be brought into, the derived
    variables agree with the configuration: [BothHandle] is the MultiWriter
    of the current log and console handles, and every note pad has the level
    and prefix it was declared with, the handle of the branch that level
    takes under the current thresholds, and a non-nil logger made of that
    handle, that prefix and the current flag. *)
Theorem X3_writers_in_sync (st : State) (p : PadRef) :
  reachable st ->
  let d := destination (n_Level (pad0 p)) (outputThreshold st) (logThreshold st) in
  BothHandle st = io_MultiWriter (LogHandle st) (OutHandle st) /\
  n_Level (pads st p) = n_Level (pad0 p) /\
  Prefix (pads st p) = Prefix (pad0 p) /\
  Handle (pads st p) = sink_of st d /\
  Logger (pads st p) = Some (log_New (sink_of st d) (Prefix (pad0 p)) (Flag st)).
Proof.
  intros Hr. cbv zeta.
  destruct (reachable_rebuilt st Hr) as [HB Hp].
  destruct (reachable_as_declared st Hr p) as [HL HP].
  destruct (Hp p) as [Hh Hl].
  rewrite resolve_destination, HL in Hh.
  rewrite Hl, Hh, HP. auto.
Qed.

Lemma X3_writers_in_sync_witness :
  reachable logging_to_app_log /\
  BothHandle logging_to_app_log = io_MultiWriter (os_File "app.log") os_Stdout /\
  Handle (pads logging_to_app_log DEBUG) = ioutil_Discard.
Proof.
  assert (Hr : reachable logging_to_app_log)
    by (apply reach_SetLogFile, reach_init).
  pose proof (X3_writers_in_sync logging_to_app_log DEBUG Hr) as (H1 & _ & _ & H2 & _).
  split; [exact Hr | split; [exact H1 | exact H2]].
Defined.

(** X4: in every reachable state no method of a note pad dereferences a nil
    logger -- it either returns or ends as the logger's method does -- and
    [SetLogFile] always returns to its caller, with the error of
    [os.OpenFile] or nil. *)
Theorem X4_no_nil_logger (st : State) :
  reachable st ->
  (forall m p v,
     fst (NotePad_call m p v st) <> NilDereference /\
     (fst (NotePad_call m p v st) = Returned tt \/
      fst (NotePad_call m p v st) = ending_of m v)) /\
  (forall path, fst (SetLogFile path st) = Returned (os_OpenFile st path)).
Proof.
  intros Hr. pose proof (reachable_rebuilt st Hr) as Hb. split.
  - intros m p v. rewrite (call_ending m p v st Hb).
    destruct (NotePad_checkLevel st (pads st p)).
    + split; [apply ending_not_nil | right; reflexivity].
    + split; [discriminate | left; reflexivity].
  - intros path. unfold SetLogFile.
    destruct (os_OpenFile st path) as [err |]; [| reflexivity].
    pose proof (call_rebuilt mPrintln CRITICAL
                  [VString "Failed to open log file:"; VString path; VError err]
                  st Hb) as Hc.
    cbn [NotePad_call ending_of] in Hc. rewrite Hc.
    destruct (destination _ _ _); reflexivity.
Qed.

Lemma X4_no_nil_logger_witness :
  reachable logging_to_app_log /\
  fst (SetLogFile "/var/log/x.log" logging_to_app_log) =
    Returned (os_OpenFile logging_to_app_log "/var/log/x.log").
Proof.
  assert (Hr : reachable logging_to_app_log)
    by (apply reach_SetLogFile, reach_init).
  split; [exact Hr |].
  exact (proj2 (X4_no_nil_logger logging_to_app_log Hr) "/var/log/x.log").
Defined.

(** X5: in every reachable state both thresholds lie between [LevelTrace]
    and [LevelFatal]; neither is ever [LevelNone], whatever was passed to
    the setters. *)
Theorem X5_thresholds_stay_in_range (st : State) :
  reachable st ->
  LevelTrace <= logThreshold st <= LevelFatal /\
  LevelTrace <= outputThreshold st <= LevelFatal /\
  logThreshold st <> LevelNone /\
  outputThreshold st <> LevelNone.
Proof.
  intros Hr. destruct (reachable_threshold_range st Hr) as [Hl Ho].
  unfold LevelTrace, LevelFatal, LevelNone in *.
  split_and!; lia.
Qed.

Lemma X5_thresholds_stay_in_range_witness :
  reachable (SetLogThreshold LevelNone (init only_app_log)) /\
  logThreshold (SetLogThreshold LevelNone (init only_app_log)) <> LevelNone.
Proof.
  assert (Hr : reachable (SetLogThreshold LevelNone (init only_app_log)))
    by (apply reach_SetLogThreshold, reach_init).
  split; [exact Hr |].
  exact (proj1 (proj2 (proj2 (X5_thresholds_stay_in_range _ Hr)))).
Defined.

(** X6: the FATAL note pad cannot be silenced: in every reachable state its
    level passes the guard, so every method called on it formats its message,
    writes one line with the prefix "[F]: " on the handle of FATAL and ends
    as the logger's method does -- Fatal, Fatalf and Fatalln exit with
    status 1, and the panic methods panic with the message. *)
Theorem X6_FATAL_is_never_silenced (st : State) (m : Method) (v : list Value) :
  reachable st ->
  NotePad_checkLevel st (pads st FATAL) = true /\
  NotePad_call m FATAL v st =
    (ending_of m v,
     set_events (events st ++
                   [Formatted (text_of m v);
                    Wrote (Handle (pads st FATAL))
                          (mkLine "[F]: " (Flag st) (text_of m v))])
                st) /\
  fst (NotePad_Fatal FATAL v st) = Exited 1 /\
  fst (NotePad_Fatalln FATAL v st) = Exited 1 /\
  fst (NotePad_Panic FATAL v st) = Panicked (fmt_Sprint v).
Proof.
  intros Hr.
  destruct (reachable_threshold_range st Hr) as [Hl Ho].
  destruct (reachable_rebuilt st Hr) as [_ Hp].
  destruct (reachable_as_declared st Hr FATAL) as [HL HP].
  destruct (Hp FATAL) as [_ Hlog].
  change (n_Level (pad0 FATAL)) with LevelFatal in HL.
  change (Prefix (pad0 FATAL)) with "[F]: " in HP.
  assert (Hc : NotePad_checkLevel st (pads st FATAL) = true).
  { apply checkLevel_true. rewrite HL. lia. }
  assert (Hall : forall m', NotePad_call m' FATAL v st =
            (ending_of m' v,
             set_events (events st ++
                           [Formatted (text_of m' v);
                            Wrote (Handle (pads st FATAL))
                                  (mkLine "[F]: " (Flag st) (text_of m' v))])
                        st)).
  assert (HhF : Handle (pads st FATAL) =
                io_MultiWriter (LogHandle st) (OutHandle st)).
  { destruct (reachable_rebuilt st Hr) as [HB _]. destruct (Hp FATAL) as [-> _].
    rewrite resolve_destination, HL.
    destruct (destination_cases LevelFatal (outputThreshold st) (logThreshold st))
      as (_ & [_ Hcomb] & _).
    rewrite Hcomb by lia. exact HB. }
  { intros m'. rewrite call_guarded, Hc, Hlog, Logger_call_Some.
    cbn [out prefix flag]. rewrite HP. unfold emitted.
    destruct (Handle (pads st FATAL)); try discriminate HhF. reflexivity. }
  split; [exact Hc | split; [apply Hall |]].
  pose proof (Hall mFatal) as H1. pose proof (Hall mFatalln) as H2.
  pose proof (Hall mPanic) as H3. cbn [NotePad_call] in H1, H2, H3.
  rewrite H1, H2, H3. auto.
Qed.

Lemma X6_FATAL_is_never_silenced_witness :
  let st := SetStdoutThreshold LevelNone (SetLogThreshold LevelNone (init only_app_log)) in
  reachable st /\
  fst (NotePad_Fatal FATAL [VString "x"] st) = Exited 1.
Proof.
  cbv zeta.
  assert (Hr : reachable (SetStdoutThreshold LevelNone
                            (SetLogThreshold LevelNone (init only_app_log))))
    by (apply reach_SetStdoutThreshold, reach_SetLogThreshold, reach_init).
  split; [exact Hr |].
  exact (proj1 (proj2 (proj2 (X6_FATAL_is_never_silenced _ mFatal [VString "x"] Hr)))).
Defined.

(** ** How the setters compose *)

(** Both sides of a [same_config] goal between compositions of setters are
    rebuilds of configurations that differ only in the order of the
    assignments. *)
Ltac same_rebuild :=
  unfold same_config, SetLogThreshold, SetStdoutThreshold, SetLogFlag;
  split_and!; try intros ?; after_initialize; unfold resolve;
  after_initialize; reflexivity.

(** X7: the three setters commute with one another: setting the log
    threshold, the stdout threshold and the flag in any order leaves the
    same configuration, note pads included. *)
Theorem X7_setters_commute (st : State) (a b : Level) (flag : Z) :
  same_config (SetLogThreshold a (SetStdoutThreshold b st))
              (SetStdoutThreshold b (SetLogThreshold a st)) /\
  same_config (SetLogThreshold a (SetLogFlag flag st))
              (SetLogFlag flag (SetLogThreshold a st)) /\
  same_config (SetStdoutThreshold b (SetLogFlag flag st))
              (SetLogFlag flag (SetStdoutThreshold b st)).
Proof. split; [| split]; same_rebuild. Qed.

(** X8: the last call of a setter wins: whatever value an earlier call of
    the same setter stored, the configuration is the one the last call alone
    would have produced. *)
Theorem X8_last_setter_wins (st : State) (a b : Level) (f g : Z) :
  same_config (SetLogThreshold a (SetLogThreshold b st)) (SetLogThreshold a st) /\
  same_config (SetStdoutThreshold a (SetStdoutThreshold b st))
              (SetStdoutThreshold a st) /\
  same_config (SetLogFlag f (SetLogFlag g st)) (SetLogFlag f st).
Proof. split; [| split]; same_rebuild. Qed.

(** ** levelCheck (lines 172-182) *)

(** X9: [levelCheck] is the clamp onto [[LevelTrace, LevelFatal]]: it is
    [max LevelTrace (min level LevelFatal)], it is idempotent, it keeps the
    order of levels, and its fixed points are exactly the levels from
    [LevelTrace] to [LevelFatal]. *)
Theorem X9_levelCheck_is_a_clamp (a b : Level) :
  levelCheck a = Z.max LevelTrace (Z.min a LevelFatal) /\
  levelCheck (levelCheck a) = levelCheck a /\
  (a <= b -> levelCheck a <= levelCheck b) /\
  (levelCheck a = a <-> LevelTrace <= a <= LevelFatal).
Proof.
  unfold levelCheck, LevelTrace, LevelFatal.
  split_and!.
  - compare_levels; lia.
  - compare_levels; lia.
  - intros H. compare_levels; lia.
  - split; intros H.
    + revert H. compare_levels; lia.
    + compare_levels; lia.
Qed.

(** ** Who writes *)

(** X10: only the emission methods write.  The three setters, and
    [SetLogFile] when the file opens, leave [events] as they found it; and a
    method call changes nothing but [events], to which it appends nothing,
    or the built message alone, or the built message followed by one
    written line: never more than one line. *)
Theorem X10_only_emission_writes (st : State) :
  (forall level, events (SetLogThreshold level st) = events st) /\
  (forall level, events (SetStdoutThreshold level st) = events st) /\
  (forall flag, events (SetLogFlag flag st) = events st) /\
  (forall path, os_OpenFile st path = None ->
                events (snd (SetLogFile path st)) = events st) /\
  (forall m p v,
     exists es,
       snd (NotePad_call m p v st) = set_events (events st ++ es) st /\
       (es = [] \/
        es = [Formatted (text_of m v)] \/
        exists w l, es = [Formatted (text_of m v); Wrote w l])).
Proof.
  split_and!.
  - intros level. unfold SetLogThreshold. after_initialize. reflexivity.
  - intros level. unfold SetStdoutThreshold. after_initialize. reflexivity.
  - intros flag. unfold SetLogFlag. after_initialize. reflexivity.
  - intros path Hopen. unfold SetLogFile. rewrite Hopen. cbn [snd].
    after_initialize. reflexivity.
  - intros m p v. rewrite call_guarded.
    destruct (NotePad_checkLevel st (pads st p)).
    + destruct (Logger (pads st p)) as [l |].
      * rewrite Logger_call_Some. cbn [snd]. eexists.
        split; [apply add_events_state |].
        unfold emitted. destruct (out l); [destruct (is_panic m) | |]; eauto.
      * unfold Logger_call, Logger_panic, Logger_emit.
        destruct (is_panic m); cbn [snd].
        -- eexists. split; [reflexivity | auto].
        -- exists []. split; [exact (add_events_state [] st) | auto].
    + exists []. split; [exact (add_events_state [] st) | auto].
Qed.

(** X11: the fatal and panic methods deliver exactly what the print methods
    deliver: on every state, the output after Fatal or Panic is the output
    after Print, after Fatalf or Panicf that after Printf, after Fatalln or
    Panicln that after Println; the same lines reach the same files, and
    the methods differ in how the call ends. *)
Theorem X11_fatal_and_panic_write_as_print (st : State) (p : PadRef)
    (format : string) (v : list Value) :
  let out_of (r : Outcome unit * State) := output (events (snd r)) in
  out_of (NotePad_Fatal p v st) = out_of (NotePad_Print p v st) /\
  out_of (NotePad_Panic p v st) = out_of (NotePad_Print p v st) /\
  out_of (NotePad_Fatalf p format v st) = out_of (NotePad_Printf p format v st) /\
  out_of (NotePad_Panicf p format v st) = out_of (NotePad_Printf p format v st) /\
  out_of (NotePad_Fatalln p v st) = out_of (NotePad_Println p v st) /\
  out_of (NotePad_Panicln p v st) = out_of (NotePad_Println p v st).
Proof.
  cbv zeta.
  unfold NotePad_Fatal, NotePad_Panic, NotePad_Fatalf, NotePad_Panicf,
    NotePad_Fatalln, NotePad_Panicln, NotePad_Print, NotePad_Printf,
    NotePad_Println.
  destruct (NotePad_checkLevel st (pads st p)); cbn [negb];
    [| repeat split].
  unfold Logger_Fatal, Logger_Panic, Logger_Fatalf, Logger_Panicf,
    Logger_Fatalln, Logger_Panicln, Logger_Print, Logger_Printf, Logger_Println,
    Logger_emit, Logger_panic, Logger_output.
  destruct (Logger (pads st p)) as [l |]; [destruct (isDiscard l) |];
    cbn [snd events set_events]; rewrite ?output_app; cbn [output flat_map delivered];
    rewrite ?app_nil_r; repeat split.
Qed.

(** ** Which files a level reaches *)

(** The files behind the handle of a destination, in a state whose
    [BothHandle] is up to date. *)
Lemma targets_of_destination st level name :
  BothHandle st = io_MultiWriter (LogHandle st) (OutHandle st) ->
  In name (targets (sink_of st
                      (destination level (outputThreshold st) (logThreshold st)))) <->
  (level >= logThreshold st /\ In name (targets (LogHandle st))) \/
  (level >= outputThreshold st /\ In name (targets (OutHandle st))).
Proof.
  intros HB. unfold destination. compare_levels; cbn [sink_of]; rewrite ?HB;
    cbn [targets]; rewrite ?in_app_iff; cbn [In]; intuition lia.
Qed.

Lemma initialize_targets st p name :
  In name (targets (Handle (pads (initialize st) p))) <->
  (n_Level (pads st p) >= logThreshold st /\ In name (targets (LogHandle st))) \/
  (n_Level (pads st p) >= outputThreshold st /\ In name (targets (OutHandle st))).
Proof.
  rewrite initialize_Handle.
  pose proof (targets_of_destination (initialize st) (n_Level (pads st p)) name
                (initialize_BothHandle st)) as H.
  revert H. after_initialize. intros H. exact H.
Qed.






(** ** The name table and the setters *)

Lemma LevelMatches_entries name level :
  LevelMatches !! name = Some level ->
  (name, level) = ("TRACE", LevelTrace) \/ (name, level) = ("DEBUG", LevelDebug) \/
  (name, level) = ("INFO", LevelInfo) \/ (name, level) = ("WARN", LevelWarn) \/
  (name, level) = ("ERROR", LevelError) \/
  (name, level) = ("CRITICAL", LevelCritical) \/
  (name, level) = ("FATAL", LevelFatal) \/ (name, level) = ("NONE", LevelNone).
Proof.
  unfold LevelMatches. rewrite !lookup_insert_Some, lookup_empty.
  intros H.
  repeat (destruct H as [[<- <-] | [_ H]]; [tauto |]).
  discriminate.
Qed.

(** X15: a level taken from [LevelMatches] and given to a threshold setter
    is stored as it is, except the level of "NONE", which is stored as
    [LevelFatal]; and the table is one-to-one: two names bound to the same
    level are the same name. *)
Theorem X15_names_as_thresholds (st : State) (name name' : string) (level : Level) :
  LevelMatches !! name = Some level ->
  logThreshold (SetLogThreshold level st) =
    (if String.eqb name "NONE" then LevelFatal else level) /\
  outputThreshold (SetStdoutThreshold level st) =
    (if String.eqb name "NONE" then LevelFatal else level) /\
  (LevelMatches !! name' = Some level -> name' = name).
Proof.
  intros H. unfold SetLogThreshold, SetStdoutThreshold. after_initialize.
  apply LevelMatches_entries in H.
  split; [| split]; [| | intros H'; apply LevelMatches_entries in H'];
    unfold LevelTrace, LevelDebug, LevelInfo, LevelWarn, LevelError,
      LevelCritical, LevelFatal, LevelNone in *;
    repeat (destruct H as [H | H]); inversion H; subst; clear H;
    try (vm_compute; reflexivity);
    repeat (destruct H' as [H' | H']); inversion H'; subst; reflexivity.
Qed.

Lemma X15_names_as_thresholds_witness :
  LevelMatches !! "NONE" = Some LevelNone /\
  logThreshold (SetLogThreshold LevelNone (init only_app_log)) = LevelFatal.
Proof.
  assert (H : LevelMatches !! "NONE" = Some LevelNone) by (vm_compute; reflexivity).
  split; [exact H |].
  exact (proj1 (X15_names_as_thresholds (init only_app_log) "NONE" "NONE" LevelNone H)).
Defined.

(** ** Replacing the log file *)



(** X17: [SetLogFile] is idempotent when the file opens: a second call with
    the same path returns nil again and leaves the configuration, note pads
    included, as the first call left it. *)
Theorem X17_SetLogFile_idempotent (st : State) (path : string) :
  os_OpenFile st path = None ->
  fst (SetLogFile path (snd (SetLogFile path st))) = Returned None /\
  same_config (snd (SetLogFile path (snd (SetLogFile path st))))
              (snd (SetLogFile path st)).
Proof.
  intros Hopen.
  assert (Hst : SetLogFile path st =
                (Returned None, initialize (set_LogHandle (os_File path) st)))
    by (unfold SetLogFile; rewrite Hopen; reflexivity).
  rewrite Hst. cbn [snd].
  assert (Hopen' : os_OpenFile (initialize (set_LogHandle (os_File path) st)) path = None)
    by (after_initialize; exact Hopen).
  unfold SetLogFile at 1 2. rewrite Hopen'. cbn [fst snd].
  split; [reflexivity |].
  unfold same_config. split_and!; try intros ?; after_initialize; unfold resolve;
    after_initialize; reflexivity.
Qed.

Lemma X17_SetLogFile_idempotent_witness :
  os_OpenFile (init only_app_log) "app.log" = None /\
  fst (SetLogFile "app.log" (snd (SetLogFile "app.log" (init only_app_log)))) =
    Returned None.
Proof.
  assert (Ho : os_OpenFile (init only_app_log) "app.log" = None)
    by (vm_compute; reflexivity).
  split; [exact Ho |].
  exact (proj1 (X17_SetLogFile_idempotent (init only_app_log) "app.log" Ho)).
Defined.

(** ** The configuration the package starts with (lines 114-135, 148-150) *)

(** X18: right after package initialisation, whatever the file system, a
    method called on TRACE or DEBUG puts nothing on any file, and a method
    called on INFO, WARN, ERROR, CRITICAL or FATAL puts exactly one line on
    standard output and on no other file: the note pad's prefix, the flag
    [Ldate|Ltime] and the message. *)
Theorem X18_default_configuration (fs : string -> option string) (m : Method)
    (p : PadRef) (v : list Value) :
  output (events (snd (NotePad_call m p v (init fs)))) =
    if n_Level (pad0 p) <? LevelInfo then []
    else [("/dev/stdout",
           mkLine (Prefix (pad0 p)) (Z.lor log_Ldate log_Ltime) (text_of m v))].
Proof. destruct p; destruct m; vm_compute; reflexivity. Qed.

(** ** Emission, end to end *)

(** X19: in every reachable state a method call adds to the output exactly
    one copy of its line -- the declared prefix of the note pad, the current
    flag and the message -- for each file of the log handle when the note
    pad's level is at or above the log threshold, followed by one copy for
    each file of the console handle when the level is at or above the stdout
    threshold; earlier output is kept as it is. *)
Theorem X19_emission_end_to_end (st : State) (m : Method) (p : PadRef)
    (v : list Value) :
  reachable st ->
  let L := n_Level (pad0 p) in
  let line := mkLine (Prefix (pad0 p)) (Flag st) (text_of m v) in
  output (events (snd (NotePad_call m p v st))) =
    output (events st) ++
    (if L >=? logThreshold st then written_to (LogHandle st) line else []) ++
    (if L >=? outputThreshold st then written_to (OutHandle st) line else []).
Proof.
  intros Hr. cbv zeta.
  pose proof (reachable_rebuilt st Hr) as Hb.
  destruct (reachable_as_declared st Hr p) as [HL HP].
  rewrite (call_rebuilt m p v st Hb), HL, HP.
  destruct Hb as [HB _].
  unfold destination. compare_levels; cbn [snd sink_of];
    rewrite ?output_add_emitted, ?HB, ?written_to_MultiWriter, ?app_nil_r;
    try reflexivity; lia.
Qed.

Lemma X19_emission_end_to_end_witness :
  reachable logging_to_app_log /\
  output (events (snd (NotePad_call mPrintln ERROR [VString "x"] logging_to_app_log))) =
    [("app.log", mkLine "[E]: " 3 (fmt_Sprintln [VString "x"]));
     ("/dev/stdout", mkLine "[E]: " 3 (fmt_Sprintln [VString "x"]))].
Proof.
  assert (Hr : reachable logging_to_app_log)
    by (apply reach_SetLogFile, reach_init).
  split; [exact Hr |].
  exact (X19_emission_end_to_end logging_to_app_log mPrintln ERROR [VString "x"] Hr).
Defined.
